(** * dolo: steady state of a discrete-time model ([dolo/algos/steady_state.py])

    A shallow embedding of [find_steady_state] and of the residual function
    [fobj] it builds, followed by the properties of the routine.

    The routine orchestrates three numeric collaborators that live outside
    the file: [dolo.numeric.solver.MyJacobian], [numpy.linalg.matrix_rank]
    and [scipy.optimize.root].  They are parameters of the embedding; every
    call to one of them is recorded in the trace of the run, so that "before
    the Jacobian is estimated" or "the solver is never invoked" are statements
    about that trace.  Python exceptions are values of [exn].  Where the
    behaviour of a line depends on the interpreter, the embedding follows
    Python 3 and a current numpy: a list is not indexed by an index array,
    and [dict.values()] is a view, not a list. *)

From Stdlib Require Import String DecimalString DecimalNat ZArith Arith Lia.
From Stdlib Require Import Floats.SpecFloat List.
Import ListNotations.

Set Implicit Arguments.

(** ** Exceptions and fallible computations *)

Inductive exn : Type :=
| TypeError
| ValueError
| IndexError
| NameError
| Raised (name : string).   (* whatever a collaborator raises *)

Inductive res (A : Type) : Type :=
| Ok (a : A)
| Err (e : exn).

Arguments Ok {A} a.
Arguments Err {A} e.

Definition res_bind {A B : Type} (c : res A) (k : A -> res B) : res B :=
  match c with
  | Ok a => k a
  | Err e => Err e
  end.

Definition res_map {A B : Type} (g : A -> B) (c : res A) : res B :=
  res_bind c (fun a => Ok (g a)).

Declare Scope res_scope.
Delimit Scope res_scope with res.
Notation "'try' x <- c ; k" := (res_bind c (fun x => k))
  (at level 10, x name, c at level 100, k at level 200) : res_scope.

(** A list comprehension whose element expression may raise: elements are
    evaluated left to right and the first exception aborts the whole list. *)
Fixpoint comprehension {A B : Type} (g : A -> res B) (l : list A) : res (list B) :=
  match l with
  | [] => Ok []
  | a :: l' =>
      (try b <- g a;
       try bs <- comprehension g l';
       Ok (b :: bs))%res
  end.

(** ** The part of numpy the routine uses, on one-dimensional arrays *)

Module numpy.

(** A numpy scalar is an IEEE-754 binary64 number. *)
Definition float64 : Type := spec_float.
Definition prec : Z := 53.
Definition emax : Z := 1024.

Definition vec : Type := list float64.
Definition matrix : Type := list vec.      (* rows *)

Definition nan : float64 := S754_nan.
Definition of_Z (n : Z) : float64 := binary_normalize prec emax n 0 false.

Definition fadd (a b : float64) : float64 := SFadd prec emax a b.
Definition fsub (a b : float64) : float64 := SFsub prec emax a b.
Definition fmul (a b : float64) : float64 := SFmul prec emax a b.
Definition fdiv (a b : float64) : float64 := SFdiv prec emax a b.

Definition isfinite (a : float64) : bool :=
  match a with
  | S754_zero _ | S754_finite _ _ _ => true
  | S754_infinity _ | S754_nan => false
  end.

(** [numpy.zeros(n)] *)
Definition zeros (n : nat) : vec := repeat (S754_zero false) n.

(** An array of any dimension: its shape and its elements in C order. *)
Record ndarray : Type := { shape : list nat; flat : vec }.

Definition zeros_nd (n : nat) : ndarray := {| shape := [n]; flat := zeros n |}.

(** [a.ravel()] *)
Definition ravel (a : ndarray) : vec := flat a.

(** [numpy.where(mask)[0]]: the positions of the true entries. *)
Fixpoint where_from (i : nat) (mask : list bool) : list nat :=
  match mask with
  | [] => []
  | b :: mask' =>
      if b then i :: where_from (S i) mask' else where_from (S i) mask'
  end.

Definition where_ (mask : list bool) : list nat := where_from 0 mask.

(** [a[inds]] for a list of positions: one entry per position, and an
    IndexError as soon as one of them is out of bounds. *)
Definition take (a : vec) (inds : list nat) : res vec :=
  comprehension
    (fun i => match nth_error a i with
              | Some v => Ok v
              | None => Err IndexError
              end) inds.

(** [a - b] with broadcasting: equal lengths subtract entry by entry, an
    operand of length one is stretched, anything else is a ValueError. *)
Fixpoint zip_sub (a b : vec) : vec :=
  match a, b with
  | u :: a', v :: b' => fsub u v :: zip_sub a' b'
  | _, _ => []
  end.

Definition subtract (a b : vec) : res vec :=
  if length a =? length b then Ok (zip_sub a b)
  else match a, b with
       | [u], _ => Ok (map (fun v => fsub u v) b)
       | _, [v] => Ok (map (fun u => fsub u v) a)
       | _, _ => Err ValueError
       end.

(** [a - v] for a scalar [v]. *)
Definition subtract_scalar (a : vec) (v : float64) : vec :=
  map (fun u => fsub u v) a.

(** A one-dimensional array with its dtype: floats, or Python objects once
    an operand that is not an array of numbers has come in. *)
Inductive dtype : Type :=
| float_
| object_.

Record array : Type := { dtype_of : dtype; entries : vec }.

Definition floats (a : vec) : array := {| dtype_of := float_; entries := a |}.

(** [numpy.concatenate([a, b])]: objects on either side make the result an
    array of objects. *)
Definition concatenate (a b : array) : array :=
  {| dtype_of := match dtype_of a, dtype_of b with
                 | float_, float_ => float_
                 | _, _ => object_
                 end;
     entries := entries a ++ entries b |}.

(** [a - view] for a dict view: numpy takes the view for one Python object
    and subtracts it from every entry, each time a TypeError ([float] minus
    [dict_values]); without entries nothing is subtracted and what comes
    back is an empty array of objects. *)
Definition subtract_view (a : vec) : res array :=
  match a with
  | [] => Ok {| dtype_of := object_; entries := [] |}
  | _ :: _ => Err TypeError
  end.

End numpy.

Import numpy.

(** ** The model object *)

Record Model : Type := {
  calibration_states : vec;        (* model.calibration['states'] *)
  calibration_controls : vec;      (* model.calibration['controls'] *)
  calibration_parameters : vec;    (* model.calibration['parameters'] *)
  symbols_states : list string;    (* model.symbols['states'] *)
  symbols_controls : list string;  (* model.symbols['controls'] *)
  symbols_shocks : list string;    (* model.symbols['shocks'] *)
  (* model.functions['transition'](s, x, e, p) *)
  transition : vec -> vec -> vec -> vec -> res vec;
  (* model.functions['arbitrage'](s, x, S, X, p) *)
  arbitrage : vec -> vec -> vec -> vec -> vec -> res vec
}.

(** The calibrated vectors have one entry per symbol of their group. *)
Definition well_formed (model : Model) : Prop :=
  length (calibration_states model) = length (symbols_states model) /\
  length (calibration_controls model) = length (symbols_controls model).

(** ** [force_values] *)

(** What the caller may pass: a list or tuple, a dict (its items in
    iteration order), or any other object, an ndarray for instance. *)
Inductive ForceValues : Type :=
| Sequence (l : vec)
| Dict (items : list (string * float64))
| Other.

(** [symbols.index(k)]: the first position of [k], a ValueError without one. *)
Fixpoint index (symbols : list string) (k : string) : res nat :=
  match symbols with
  | [] => Err ValueError
  | y :: symbols' =>
      if String.eqb y k then Ok 0 else res_map S (index symbols' k)
  end.

(** [force_values[inds]] when [force_values] is a list or a tuple and [inds]
    an integer array: the sequence asks the array for its [__index__], which
    numpy grants to arrays of dimension zero only.  [inds] comes out of
    [numpy.where] with one dimension, so this is a TypeError whatever the
    sequence and the array hold, also when the array has a single entry. *)
Definition sequence_getitem (l : vec) (inds : list nat) : res float64 :=
  Err TypeError.

(** [vals] is what line 29 would bind on the sequence branch, a scalar, and
    on the dict branch the view [force_values.values()], in the order of
    [force_values.keys()]. *)
Inductive Vals : Type :=
| Scalar (v : float64)
| Values (l : vec).

(** The closure variables [inds] and [vals] after lines 26-32. *)
Inductive Binding : Type :=
| Unforced                                (* force_values is None *)
| Bound (inds : list nat) (vals : Vals)
| Unbound.                                (* neither branch assigned them *)

Definition bind_force_values (model : Model) (force_values : option ForceValues)
  : res Binding :=
  match force_values with
  | None => Ok Unforced
  | Some (Sequence l) =>
      let inds := where_ (map isfinite l) in
      (try vals <- sequence_getitem l inds;
       Ok (Bound inds (Scalar vals)))%res
  | Some (Dict items) =>
      (try inds <- comprehension (index (symbols_states model)) (map fst items);
       Ok (Bound inds (Values (map snd items))))%res
  | Some Other => Ok Unbound
  end.

(** ** The residual function *)

(** [S[inds] - vals] *)
Definition forced_gap (S : vec) (inds : list nat) (vals : Vals) : res array :=
  (try Si <- take S inds;
   match vals with
   | Scalar v => Ok (floats (subtract_scalar Si v))
   | Values _ => subtract_view Si
   end)%res.

Definition fobj (model : Model) (s0 e p : vec) (b : Binding) (z : vec) : res array :=
  let s := firstn (length s0) z in
  let x := skipn (length s0) z in
  (try S <- transition model s x e p;
   try r <- arbitrage model s x s x p;
   try gap <- subtract S s;
   let res := floats (gap ++ r) in
   match b with
   | Unforced => Ok res
   | Unbound => Err NameError
   | Bound inds vals =>
       try add <- forced_gap S inds vals;
       Ok (concatenate res add)
   end)%res.

(** ** Runs: a trace of collaborator calls and an outcome *)

(** What [scipy.optimize.root] hands back. *)
Record OptimizeResult : Type := {
  x : vec;
  success : bool;
  status : Z
}.

Inductive event : Type :=
| EvJacobian (z : vec)             (* MyJacobian(fobj)(z) *)
| EvMatrixRank (jac : matrix)      (* numpy.linalg.matrix_rank(jac) *)
| EvWarn (message : string)        (* warnings.warn(message) *)
| EvRoot (z : vec).                (* root(fobj, z, method='lm') *)

(** What the caller gets back: the Jacobian, or the list [[s, x]]. *)
Inductive Result : Type :=
| Jacobian (jac : matrix)
| SteadyState (s x : vec).

Definition run (A : Type) : Type := (list event * res A)%type.

Definition ret {A : Type} (a : A) : run A := ([], Ok a).

Definition bind {A B : Type} (c : run A) (k : A -> run B) : run B :=
  match c with
  | (t, Ok a) => let (t', r) := k a in (t ++ t', r)
  | (t, Err e) => (t, Err e)
  end.

(** A step that touches no collaborator. *)
Definition quiet {A : Type} (c : res A) : run A := ([], c).

(** A call to a collaborator, recorded whether it returns or raises. *)
Definition call {A : Type} (ev : event) (c : res A) : run A := ([ev], c).

Declare Scope run_scope.
Delimit Scope run_scope with run.
Notation "'do' x <- c ; k" := (bind c (fun x => k))
  (at level 10, x name, c at level 100, k at level 200) : run_scope.
Notation "'do_' c ; k" := (bind c (fun _ => k))
  (at level 10, c at level 100, k at level 200) : run_scope.

Definition trace {A : Type} (r : run A) : list event := fst r.
Definition outcome {A : Type} (r : run A) : res A := snd r.

(** [str(n)] for a non-negative integer. *)
Definition str (n : nat) : string := NilEmpty.string_of_uint (Nat.to_uint n).

(** The text of the indeterminacy warning (line 54). *)
Definition warning_message (n rank : nat) : string :=
  ("There are " ++ str n
   ++ " equilibrium variables to find, but the jacobian matrix is only of rank "
   ++ str rank ++ ". The solution is indeterminate.")%string.

(** ** [find_steady_state] *)

Section FindSteadyState.

(** [dolo.numeric.solver.MyJacobian(f)(z)] *)
Variable MyJacobian : (vec -> res array) -> vec -> res matrix.
(** [numpy.linalg.matrix_rank(jac)] *)
Variable matrix_rank : matrix -> res nat.
(** [scipy.optimize.root(f, z, method='lm')] *)
Variable root : (vec -> res array) -> vec -> res OptimizeResult.

(** The shock vector after lines 21-24. *)
Definition shocks (model : Model) (e : option ndarray) : vec :=
  match e with
  | None => zeros (length (symbols_shocks model))
  | Some a => ravel a
  end.

(** The rank diagnostic, lines 51-54.  [warnings.warn] issues a message and
    returns; it is recorded in the trace and raises nothing. *)
Definition rank_diagnostic (jac : matrix) (z : vec) : run unit :=
  (do rank <- call (EvMatrixRank jac) (matrix_rank jac);
   if rank <? length z
   then call (EvWarn (warning_message (length z) rank)) (Ok tt)
   else ret tt)%run.

Definition find_steady_state (model : Model) (e : option ndarray)
    (force_values : option ForceValues) (return_jacobian : bool) : run Result :=
  let s0 := calibration_states model in
  let x0 := calibration_controls model in
  let p := calibration_parameters model in
  let z := s0 ++ x0 in
  let e := shocks model e in
  (do b <- quiet (bind_force_values model force_values);
   let fobj := fobj model s0 e p b in
   do jac <- call (EvJacobian z) (MyJacobian fobj z);
   if return_jacobian then ret (Jacobian jac)
   else
     do_ rank_diagnostic jac z;
     do sol <- call (EvRoot z) (root fobj z);
     let steady_state := x sol in
     ret (SteadyState (firstn (length s0) steady_state)
                      (skipn (length s0) steady_state)))%run.

End FindSteadyState.

(** ** Concrete collaborators and models

    The theorems below hold for every [MyJacobian], [matrix_rank] and [root].
    To run the routine on concrete models it needs concrete ones. *)

Module Instances.

Definition one : float64 := of_Z 1.
Definition half : float64 := fdiv one (of_Z 2).
Definition sqrt_eps : float64 := SFldexp prec emax one (-26).

(** The step of the finite difference along a coordinate of value [zi]:
    [max(|zi|, 1) * sqrt(eps)]. *)
Definition step (zi : float64) : float64 :=
  let a := SFabs zi in
  fmul (if SFltb a one then one else a) sqrt_eps.

(** [z] with its [j]-th coordinate moved by its step. *)
Fixpoint perturb (z : vec) (j : nat) : vec :=
  match z, j with
  | [] , _ => []
  | zi :: z', O => fadd zi (step zi) :: z'
  | zi :: z', S j' => zi :: perturb z' j'
  end.

(** The [j]-th column: the change of [f] over the step. *)
Definition column (f : vec -> res array) (z y0 : vec) (j : nat) : res vec :=
  (try y1 <- f (perturb z j);
   let h := step (nth j z nan) in
   Ok (map (fun d => fdiv d h) (zip_sub (entries y1) y0)))%res.

Definition transpose (rows : nat) (columns : list vec) : matrix :=
  map (fun i => map (fun c => nth i c nan) columns) (seq 0 rows).

(** Modelled from the spec: [dolo.numeric.solver.MyJacobian] is not among the
    source files.  Each column perturbs one coordinate of [z] by a small
    step (a forward difference) and divides the change of the function value
    by that step; the matrix has one row per entry of [f z] and one column
    per entry of [z].  An exception raised by [f] propagates. *)
Definition MyJacobian (f : vec -> res array) (z : vec) : res matrix :=
  (try y0 <- f z;
   try columns <- comprehension (column f z (entries y0)) (seq 0 (length z));
   Ok (transpose (length (entries y0)) columns))%res.

(** Stands in for [numpy.linalg.matrix_rank] on the small matrices of the
    examples, whose entries are exact: the number of pivots of a Gaussian
    elimination. *)
Definition is_zero (a : float64) : bool :=
  match a with
  | S754_zero _ => true
  | _ => false
  end.

Fixpoint find_pivot (rows : matrix) : option (vec * matrix) :=
  match rows with
  | [] => None
  | r :: rows' =>
      if is_zero (hd (S754_zero false) r)
      then match find_pivot rows' with
           | Some (pv, rest) => Some (pv, r :: rest)
           | None => None
           end
      else Some (r, rows')
  end.

Fixpoint axpy (q : float64) (pv r : vec) : vec :=
  match pv, r with
  | u :: pv', v :: r' => fsub v (fmul q u) :: axpy q pv' r'
  | _, _ => []
  end.

Definition eliminate (pv r : vec) : vec :=
  match pv, r with
  | a :: pv', b :: r' => axpy (fdiv b a) pv' r'
  | _, _ => []
  end.

Fixpoint pivots (columns : nat) (rows : matrix) : nat :=
  match columns with
  | O => O
  | S columns' =>
      match find_pivot rows with
      | Some (pv, rest) => S (pivots columns' (map (eliminate pv) rest))
      | None => pivots columns' (map (@tl float64) rows)
      end
  end.

Definition matrix_rank (jac : matrix) : res nat :=
  Ok (pivots (length (hd [] jac)) jac).

(** Stands in for [scipy.optimize.root] with an iteration budget of zero: it
    evaluates [f] at the initial guess and stops there, converged when the
    residual is exactly zero (status 1) and out of budget otherwise
    (status 5).  A residual that is an array of objects is refused. *)
Definition root (f : vec -> res array) (z : vec) : res OptimizeResult :=
  (try r <- f z;
   match dtype_of r with
   | object_ => Err (Raised "minpack.error")
   | float_ =>
       let converged := forallb is_zero (entries r) in
       Ok {| x := z; success := converged;
             status := if converged then 1 else 5 |}
   end)%res.

(** The same solver with its verdict overwritten: it returns the same
    iterate whether or not it reports success. *)
Definition root_reporting (verdict : bool) (f : vec -> res array) (z : vec)
  : res OptimizeResult :=
  (try sol <- root f z;
   Ok {| x := x sol; success := verdict; status := status sol |})%res.

(** Two states [k] and [a], one control [c], one shock, and parameters
    [rho_k], [rho_a], [mu]:
      K = rho_k * k + mu,   A = rho_a * a + e,   arbitrage: c - k - a. *)
Definition linear_transition (s x e p : vec) : res vec :=
  match s, e, p with
  | [k; a], [ea], [rho_k; rho_a; mu] =>
      Ok [fadd (fmul rho_k k) mu; fadd (fmul rho_a a) ea]
  | _, _, _ => Err (Raised "ValueError")
  end.

Definition linear_arbitrage (s x S X p : vec) : res vec :=
  match s, x with
  | [k; a], [c] => Ok [fsub (fsub c k) a]
  | _, _ => Err (Raised "ValueError")
  end.

Definition linear_model (rho_k mu : float64) : Model :=
  {| calibration_states := [one; of_Z 0];
     calibration_controls := [one];
     calibration_parameters := [rho_k; half; mu];
     symbols_states := ["k"; "a"]%string;
     symbols_controls := ["c"]%string;
     symbols_shocks := ["e_a"]%string;
     transition := linear_transition;
     arbitrage := linear_arbitrage |}.

(** [k] reverts to 1: the calibration is the unique steady state. *)
Definition stable_model : Model := linear_model half half.
(** [k] is a random walk: every [k] is a steady state. *)
Definition unit_root_model : Model := linear_model one (of_Z 0).
(** [k] grows by one each period: there is no steady state. *)
Definition drift_model : Model := linear_model one one.

(** The calibrated guess of the three models, and the Jacobian of the
    unconstrained residual of [unit_root_model] there: its first row, the
    gap [K - k], does not move with any unknown. *)
Definition calibrated_guess : vec := [one; of_Z 0; one].

Definition unit_root_jacobian : matrix :=
  [ [of_Z 0; of_Z 0; of_Z 0];
    [of_Z 0; SFopp half; of_Z 0];
    [SFopp one; SFopp one; one] ].

End Instances.

(** The routine with the concrete collaborators. *)
Definition run_find_steady_state :=
  find_steady_state Instances.MyJacobian Instances.matrix_rank Instances.root.

(** The initial guess and the residual function of a call. *)
Definition guess (model : Model) : vec :=
  calibration_states model ++ calibration_controls model.

Definition residual (model : Model) (e : option ndarray) (b : Binding) : vec -> res array :=
  fobj model (calibration_states model) (shocks model e)
       (calibration_parameters model) b.

(** [[sol.x[:len(s0)], sol.x[len(s0):]]] *)
Definition split_solution (model : Model) (sol : OptimizeResult) : Result :=
  SteadyState (firstn (length (calibration_states model)) (x sol))
              (skipn (length (calibration_states model)) (x sol)).

(** The events of the diagnostic for a Jacobian of rank [rank]. *)
Definition diagnostic_events (jac : matrix) (n rank : nat) : list event :=
  EvMatrixRank jac ::
  (if rank <? n then [EvWarn (warning_message n rank)] else []).

(** [k] moves with a coefficient that is not a number: the gap [K - k] and
    the first row of the Jacobian are nan. *)
Definition nan_model : Model := Instances.linear_model nan (of_Z 0).

(** Stands in for [numpy.linalg.matrix_rank] where the singular values of a
    matrix with a non-finite entry cannot be computed: a LinAlgError. *)
Definition matrix_rank_svd (jac : matrix) : res nat :=
  if forallb (forallb isfinite) jac
  then Instances.matrix_rank jac
  else Err (Raised "LinAlgError").

(** A model whose [transition] returns one entry for its two states. *)
Definition short_transition (s x e p : vec) : res vec :=
  match s with
  | [k; a] => Ok [k]
  | _ => Err (Raised "ValueError")
  end.

Definition short_model : Model :=
  {| calibration_states := [Instances.one; of_Z 0];
     calibration_controls := [Instances.one];
     calibration_parameters := [];
     symbols_states := ["k"; "a"]%string;
     symbols_controls := ["c"]%string;
     symbols_shocks := ["e_a"]%string;
     transition := short_transition;
     arbitrage := Instances.linear_arbitrage |}.

(** A model whose [transition] returns three entries for its two states. *)
Definition overlong_transition (s x e p : vec) : res vec :=
  match s with
  | [k; a] => Ok [k; a; k]
  | _ => Err (Raised "ValueError")
  end.

Definition overlong_model : Model :=
  {| calibration_states := [Instances.one; of_Z 0];
     calibration_controls := [Instances.one];
     calibration_parameters := [];
     symbols_states := ["k"; "a"]%string;
     symbols_controls := ["c"]%string;
     symbols_shocks := ["e_a"]%string;
     transition := overlong_transition;
     arbitrage := Instances.linear_arbitrage |}.

(** * Properties *)

(** ** Lists, comprehensions and numpy helpers *)

Lemma comprehension_ok_length {A B : Type} (g : A -> res B) (l : list A) (bs : list B) :
  comprehension g l = Ok bs -> length bs = length l.
Proof.
  revert bs; induction l as [|a l IH]; simpl; intros bs H.
  - now inversion H.
  - destruct (g a) as [b|ex]; simpl in H; [|discriminate].
    destruct (comprehension g l) as [bs'|ex]; simpl in H; [|discriminate].
    inversion H; subst; simpl. now rewrite (IH bs' eq_refl).
Qed.

Lemma comprehension_total {A B : Type} (g : A -> res B) (h : A -> B) (l : list A) :
  (forall a, In a l -> g a = Ok (h a)) -> comprehension g l = Ok (map h l).
Proof.
  induction l as [|a l IH]; simpl; intros H; [reflexivity|].
  rewrite (H a (or_introl eq_refl)); simpl.
  rewrite IH by (intros; apply H; now right). reflexivity.
Qed.

Lemma comprehension_raises {A B : Type} (g : A -> res B) (ex : exn) (l : list A) (a : A) :
  (forall a' ex', g a' = Err ex' -> ex' = ex) ->
  In a l -> g a = Err ex -> comprehension g l = Err ex.
Proof.
  intros Hex; induction l as [|a' l IH]; simpl; intros Hin Ha; [contradiction|].
  destruct (g a') as [b|ex'] eqn:Ea'; simpl.
  - destruct Hin as [->|Hin]; [congruence|].
    now rewrite (IH Hin Ha).
  - now rewrite (Hex _ _ Ea').
Qed.

Lemma index_only_raises_ValueError (symbols : list string) (k : string) (ex : exn) :
  index symbols k = Err ex -> ex = ValueError.
Proof.
  induction symbols as [|y l IH]; simpl; intros H.
  - now inversion H.
  - destruct (String.eqb y k); [discriminate|].
    destruct (index l k); simpl in H; [discriminate|].
    inversion H; subst. now apply IH.
Qed.

Lemma index_absent (symbols : list string) (k : string) :
  ~ In k symbols -> index symbols k = Err ValueError.
Proof.
  induction symbols as [|y l IH]; simpl; intros H; [reflexivity|].
  destruct (String.eqb_spec y k) as [->|Hne]; [tauto|].
  rewrite IH by tauto. reflexivity.
Qed.

Lemma index_in_range (symbols : list string) (k : string) (i : nat) :
  index symbols k = Ok i -> i < length symbols.
Proof.
  revert i; induction symbols as [|y l IH]; simpl; intros i H; [discriminate|].
  destruct (String.eqb y k).
  - inversion H; lia.
  - destruct (index l k) as [j|]; simpl in H; [|discriminate].
    inversion H; subst. specialize (IH j eq_refl). lia.
Qed.

(** On the dict branch every bound position is a position of the list of
    state symbols. *)
Lemma dict_indices_in_range (model : Model) (items : list (string * float64))
    (inds : list nat) (vals : Vals) (i : nat) :
  bind_force_values model (Some (Dict items)) = Ok (Bound inds vals) ->
  In i inds -> i < length (symbols_states model).
Proof.
  unfold bind_force_values.
  destruct (comprehension _ _) as [inds'|ex] eqn:Ec; simpl; [|discriminate].
  intros H; inversion H; subst; clear H. revert inds Ec.
  induction (map fst items) as [|k ks IH]; simpl; intros inds Ec Hin.
  - inversion Ec; subst. contradiction.
  - destruct (index (symbols_states model) k) as [j|] eqn:Ej; simpl in Ec;
      [|discriminate].
    destruct (comprehension _ ks) as [js|]; simpl in Ec; [|discriminate].
    inversion Ec; subst. destruct Hin as [<-|Hin].
    + now apply index_in_range with k.
    + now apply (IH js).
Qed.

Lemma take_in_range (a : vec) (inds : list nat) :
  (forall i, In i inds -> i < length a) ->
  take a inds = Ok (map (fun i => nth i a nan) inds).
Proof.
  intros H. apply comprehension_total. intros i Hi.
  destruct (nth_error a i) as [v|] eqn:E.
  - now rewrite (nth_error_nth _ _ nan E).
  - apply nth_error_None in E. specialize (H i Hi). lia.
Qed.

Lemma zip_sub_length (a b : vec) :
  length a = length b -> length (zip_sub a b) = length a.
Proof.
  revert b; induction a as [|u a IH]; intros [|v b]; simpl; intros H; try reflexivity.
  - discriminate.
  - now rewrite IH by lia.
Qed.

Lemma subtract_same_length (a b : vec) :
  length a = length b -> subtract a b = Ok (zip_sub a b).
Proof. intros H. unfold subtract. now rewrite H, Nat.eqb_refl. Qed.

(** [str n] is the decimal numeral of [n]: reading it back gives [n]. *)
Lemma str_reads_back (n : nat) :
  option_map Nat.of_uint (NilEmpty.uint_of_string (str n)) = Some n.
Proof.
  unfold str. rewrite NilEmpty.usu. simpl. now rewrite DecimalNat.Unsigned.of_to.
Qed.

(** ** The shape of a run *)

Section Runs.

Variable MyJacobian : (vec -> res array) -> vec -> res matrix.
Variable matrix_rank : matrix -> res nat.
Variable root : (vec -> res array) -> vec -> res OptimizeResult.

(** The routine with the collaborators of this section. *)
Local Abbreviation find_steady_state' :=
  (find_steady_state MyJacobian matrix_rank root).

Lemma run_binding_raises model e force_values return_jacobian ex :
  bind_force_values model force_values = Err ex ->
  find_steady_state' model e force_values return_jacobian = ([], Err ex).
Proof. intros H. unfold find_steady_state. now rewrite H. Qed.

Lemma run_jacobian_raises model e force_values return_jacobian b ex :
  bind_force_values model force_values = Ok b ->
  MyJacobian (residual model e b) (guess model) = Err ex ->
  find_steady_state' model e force_values return_jacobian =
  ([EvJacobian (guess model)], Err ex).
Proof.
  intros Hb HJ. unfold find_steady_state. rewrite Hb. simpl.
  unfold residual, guess in HJ. now rewrite HJ.
Qed.

Lemma run_return_jacobian model e force_values b :
  bind_force_values model force_values = Ok b ->
  find_steady_state' model e force_values true =
  ([EvJacobian (guess model)],
   res_map Jacobian (MyJacobian (residual model e b) (guess model))).
Proof.
  intros Hb. unfold find_steady_state. rewrite Hb. simpl.
  unfold residual, guess.
  now destruct (MyJacobian _ _).
Qed.

Lemma run_rank_raises model e force_values b jac ex :
  bind_force_values model force_values = Ok b ->
  MyJacobian (residual model e b) (guess model) = Ok jac ->
  matrix_rank jac = Err ex ->
  find_steady_state' model e force_values false =
  ([EvJacobian (guess model); EvMatrixRank jac], Err ex).
Proof.
  intros Hb HJ Hr. unfold find_steady_state. rewrite Hb. simpl.
  unfold residual, guess in HJ. rewrite HJ. simpl.
  unfold rank_diagnostic. now rewrite Hr.
Qed.

Lemma run_solve model e force_values b jac rank :
  bind_force_values model force_values = Ok b ->
  MyJacobian (residual model e b) (guess model) = Ok jac ->
  matrix_rank jac = Ok rank ->
  find_steady_state' model e force_values false =
  (EvJacobian (guess model)
     :: diagnostic_events jac (length (guess model)) rank
     ++ [EvRoot (guess model)],
   res_map (split_solution model) (root (residual model e b) (guess model))).
Proof.
  intros Hb HJ Hr. unfold find_steady_state. rewrite Hb. simpl.
  unfold residual, guess in *. rewrite HJ. simpl.
  unfold rank_diagnostic, diagnostic_events. rewrite Hr. simpl.
  destruct (rank <? _); simpl; now destruct (root _ _).
Qed.


End Runs.

(** ** The routine, for every choice of collaborators *)

Section Routine.

Variable MyJacobian : (vec -> res array) -> vec -> res matrix.
Variable matrix_rank : matrix -> res nat.
Variable root : (vec -> res array) -> vec -> res OptimizeResult.

(** The routine with the collaborators of this section. *)
Local Abbreviation find_steady_state' :=
  (find_steady_state MyJacobian matrix_rank root).

(** C1, as amended.  The solver's verdict never reaches the caller: a run
    depends on what [root] returns only through [sol.x].  Replace the solver
    by one that produces the same iterates (and raises the same exceptions)
    but reports any other [success] and [status], and the whole run, trace
    and returned value, is unchanged; so a best iterate that is not a root
    comes back in the same form as a converged one. *)
Theorem solver_verdict_is_not_surfaced
    (root' : (vec -> res array) -> vec -> res OptimizeResult)
    (model : Model) (e : option ndarray) (force_values : option ForceValues)
    (return_jacobian : bool) :
  (forall f z, res_map x (root f z) = res_map x (root' f z)) ->
  find_steady_state' model e force_values return_jacobian =
  find_steady_state MyJacobian matrix_rank root'
    model e force_values return_jacobian.
Proof.
  intros Hx. unfold find_steady_state.
  destruct (bind_force_values model force_values) as [b|ex]; simpl; [|reflexivity].
  destruct (MyJacobian _ _) as [jac|ex]; simpl; [|reflexivity].
  destruct return_jacobian; [reflexivity|].
  destruct (rank_diagnostic matrix_rank jac _) as [t [[]|ex]]; simpl; [|reflexivity].
  match goal with |- context [root ?f ?z] => specialize (Hx f z) end.
  destruct (root _ _) as [sol|ex], (root' _ _) as [sol'|ex'];
    simpl in *; inversion Hx; subst; reflexivity.
Qed.


(** C3.  A dict [force_values] with a key that is not a state symbol makes
    the call raise the lookup error of [list.index] (a ValueError) with an
    empty trace: before the Jacobian is estimated and before the root solver
    is called, whatever [return_jacobian] is. *)
Theorem unknown_symbol_raises_before_solving
    (model : Model) (e : option ndarray) (items : list (string * float64))
    (return_jacobian : bool) (k : string) :
  In k (map fst items) ->
  ~ In k (symbols_states model) ->
  find_steady_state' model e (Some (Dict items)) return_jacobian =
  ([], Err ValueError).
Proof.
  intros Hk Habsent. apply run_binding_raises. unfold bind_force_values.
  rewrite (comprehension_raises (index (symbols_states model)) (ex := ValueError)
             (map fst items) k).
  - reflexivity.
  - intros a ex. apply index_only_raises_ValueError.
  - exact Hk.
  - now apply index_absent.
Qed.

(** C5.  Passing [e=None] runs exactly as passing [numpy.zeros(n)] for [n]
    the number of shock symbols; more generally as passing any array, of
    whatever shape, whose [n] entries are all zero. *)
Theorem default_shocks_are_zeros
    (model : Model) (force_values : option ForceValues) (return_jacobian : bool) :
  let n := length (symbols_shocks model) in
  find_steady_state' model None force_values return_jacobian =
  find_steady_state' model (Some (zeros_nd n)) force_values return_jacobian /\
  (forall a : ndarray,
     ravel a = zeros n ->
     find_steady_state' model None force_values return_jacobian =
     find_steady_state' model (Some a) force_values return_jacobian).
Proof.
  cbv zeta.
  assert (H : forall a : ndarray,
             ravel a = zeros (length (symbols_shocks model)) ->
             find_steady_state' model None force_values return_jacobian =
             find_steady_state' model (Some a) force_values return_jacobian).
  { intros a Ha. unfold find_steady_state, shocks. now rewrite Ha. }
  split; [|exact H].
  apply H. reflexivity.
Qed.

(** C6.  With [return_jacobian=True] the root solver is never called, and
    once [inds] and [vals] are bound the run consists of the one call
    [MyJacobian(fobj)(z)] at [z = concatenate([s0, x0])]: its matrix is what
    is returned (and an exception it raises is the run's). *)
Theorem return_jacobian_short_circuits
    (model : Model) (e : option ndarray) (force_values : option ForceValues) :
  let s0 := calibration_states model in
  let x0 := calibration_controls model in
  let p := calibration_parameters model in
  let r := find_steady_state' model e force_values true in
  (forall z, ~ In (EvRoot z) (trace r)) /\
  (forall b, bind_force_values model force_values = Ok b ->
     r = ([EvJacobian (s0 ++ x0)],
          res_map Jacobian
            (MyJacobian (fobj model s0 (shocks model e) p b) (s0 ++ x0)))).
Proof.
  cbv zeta. split.
  - intros z. destruct (bind_force_values model force_values) as [b|ex] eqn:Hb.
    + erewrite run_return_jacobian by eassumption. simpl. intros [H|[]]. discriminate.
    + erewrite run_binding_raises by eassumption. simpl. tauto.
  - intros b Hb. now apply run_return_jacobian.
Qed.

(** C7, as amended.  On the solving path, once the Jacobian at the initial
    guess is there.  When [matrix_rank] returns: a warning is issued exactly
    when the rank is below [len(z) = ns + nx], and its text is the one of
    line 54 with the decimal numerals of the two numbers; the last
    collaborator call of the run is the root solver's, in both cases; and
    the returned value or exception is the solver's, the warning contributes
    none.  When [matrix_rank] raises, the call ends there with that
    exception, and the solver is not called. *)
Theorem warning_iff_rank_deficient
    (model : Model) (e : option ndarray) (force_values : option ForceValues)
    (b : Binding) (jac : matrix) :
  let s0 := calibration_states model in
  let x0 := calibration_controls model in
  let p := calibration_parameters model in
  let z := s0 ++ x0 in
  let f := fobj model s0 (shocks model e) p b in
  let n := length s0 + length x0 in
  let r := find_steady_state' model e force_values false in
  bind_force_values model force_values = Ok b ->
  MyJacobian f z = Ok jac ->
  (forall rank,
     matrix_rank jac = Ok rank ->
     (forall message,
        In (EvWarn message) (trace r) <->
        rank < n /\
        message =
          ("There are " ++ str n
           ++ " equilibrium variables to find, but the jacobian matrix is only of rank "
           ++ str rank ++ ". The solution is indeterminate.")%string) /\
     option_map Nat.of_uint (NilEmpty.uint_of_string (str n)) = Some n /\
     option_map Nat.of_uint (NilEmpty.uint_of_string (str rank)) = Some rank /\
     (exists before, trace r = before ++ [EvRoot z]) /\
     outcome r =
       res_map (fun sol => SteadyState (firstn (length s0) (x sol))
                                       (skipn (length s0) (x sol)))
               (root f z)) /\
  (forall ex,
     matrix_rank jac = Err ex ->
     r = ([EvJacobian z; EvMatrixRank jac], Err ex)).
Proof.
  cbv zeta. intros Hb HJ. split.
  - intros rank Hr.
    rewrite (run_solve _ _ _ _ _ _ Hb HJ Hr).
    unfold trace, outcome, guess, diagnostic_events; simpl. rewrite length_app.
    split; [|split; [apply str_reads_back|split; [apply str_reads_back|split]]].
    + intros message. destruct (Nat.ltb_spec rank
        (length (calibration_states model) + length (calibration_controls model)))
        as [Hlt|Hge]; simpl; split.
      * intros [H|[H|[H|[H|[]]]]]; try discriminate. inversion H; auto.
      * intros [_ ->]; auto.
      * intros [H|[H|[H|[]]]]; discriminate.
      * intros [H _]; lia.
    + eexists (_ :: _ :: _). simpl. reflexivity.
    + reflexivity.
  - intros ex Hr. now apply run_rank_raises with b.
Qed.

(** C8.  A solve that returns normally returns the solver's final vector
    split at [ns]: for a model whose calibrated vectors have one entry per
    symbol and a solver that returns a vector as long as its initial guess,
    the first part has one entry per state symbol and the second one entry
    per control symbol. *)
Theorem solution_is_split_at_ns
    (model : Model) (e : option ndarray) (force_values : option ForceValues)
    (t : list event) (result : Result) :
  let s0 := calibration_states model in
  let x0 := calibration_controls model in
  let p := calibration_parameters model in
  let ns := length (symbols_states model) in
  well_formed model ->
  (forall f z sol, root f z = Ok sol -> length (x sol) = length z) ->
  find_steady_state' model e force_values false = (t, Ok result) ->
  exists b sol,
    bind_force_values model force_values = Ok b /\
    root (fobj model s0 (shocks model e) p b) (s0 ++ x0) = Ok sol /\
    result = SteadyState (firstn ns (x sol)) (skipn ns (x sol)) /\
    length (firstn ns (x sol)) = length (symbols_states model) /\
    length (skipn ns (x sol)) = length (symbols_controls model).
Proof.
  cbv zeta. intros [Hs Hx] Hroot Hrun.
  destruct (bind_force_values model force_values) as [b|ex] eqn:Hb.
  2:{ erewrite run_binding_raises in Hrun by eassumption. discriminate. }
  destruct (MyJacobian (residual model e b) (guess model)) as [jac|ex] eqn:HJ.
  2:{ erewrite run_jacobian_raises in Hrun by eassumption. discriminate. }
  destruct (matrix_rank jac) as [rank|ex] eqn:Hr.
  2:{ erewrite run_rank_raises in Hrun by eassumption. discriminate. }
  rewrite (run_solve _ _ _ _ _ _ Hb HJ Hr) in Hrun.
  destruct (root (residual model e b) (guess model)) as [sol|ex] eqn:Hsol;
    simpl in Hrun; [|discriminate].
  exists b, sol. split; [reflexivity|]. split; [exact Hsol|].
  apply Hroot in Hsol. unfold guess in Hsol. rewrite length_app in Hsol.
  inversion Hrun; subst. unfold split_solution. rewrite Hs.
  split; [reflexivity|].
  rewrite length_firstn, length_skipn. lia.
Qed.

(** C10.  With [return_jacobian=True] the only collaborator call is the
    Jacobian's: no rank is computed and no warning issued, and the matrix is
    returned as it is even when its rank is below the number of unknowns.
    Whenever a run contains a warning, [return_jacobian] was false. *)
Theorem no_diagnostic_when_returning_jacobian
    (model : Model) (e : option ndarray) (force_values : option ForceValues) :
  let s0 := calibration_states model in
  let x0 := calibration_controls model in
  let p := calibration_parameters model in
  let z := s0 ++ x0 in
  (forall ev, In ev (trace (find_steady_state' model e force_values true)) ->
     ev = EvJacobian z) /\
  (forall b jac rank,
     bind_force_values model force_values = Ok b ->
     MyJacobian (fobj model s0 (shocks model e) p b) z = Ok jac ->
     matrix_rank jac = Ok rank ->
     rank < length z ->
     find_steady_state' model e force_values true = ([EvJacobian z], Ok (Jacobian jac))) /\
  (forall return_jacobian message,
     In (EvWarn message)
        (trace (find_steady_state' model e force_values return_jacobian)) ->
     return_jacobian = false).
Proof.
  cbv zeta.
  assert (Honly : forall ev,
    In ev (trace (find_steady_state' model e force_values true)) ->
    ev = EvJacobian (calibration_states model ++ calibration_controls model)).
  { intros ev. destruct (bind_force_values model force_values) as [b|ex] eqn:Hb.
    - erewrite run_return_jacobian by eassumption. simpl. intros [H|[]]; now subst.
    - erewrite run_binding_raises by eassumption. simpl. tauto. }
  split; [exact Honly|]. split.
  - intros b jac rank Hb HJ _ _.
    erewrite run_return_jacobian by eassumption.
    unfold residual, guess. now rewrite HJ.
  - intros [|] message H; [|reflexivity].
    apply Honly in H. discriminate.
Qed.

End Routine.

(** ** The residual function *)

Lemma forced_gap_of_view (S : vec) (inds : list nat) (l : vec) :
  inds <> [] -> (forall i, In i inds -> i < length S) ->
  forced_gap S inds (Values l) = Err TypeError.
Proof.
  intros Hne Hrange. unfold forced_gap. rewrite (take_in_range _ _ Hrange). simpl.
  destruct inds; [contradiction|reflexivity].
Qed.

(** C4.  For [z] of length [ns + nx], a transition returning [ns] entries
    and an arbitrage returning [nx].  Without [force_values], [fobj(z)] is
    [S - s] followed by [r], where [S = transition(s, x, e, p)] and
    [r = arbitrage(s, x, s, x, p)], of length [ns + nx].  With constraints
    the residual is not extended: a dict that is not empty binds [vals] to
    its view of values and [S[inds] - vals] raises a TypeError at line 41,
    at every [z]; a list or tuple does not get as far as [fobj], line 29
    raises. *)
Theorem fobj_assembles_residual (model : Model) (e z S r : vec) :
  let s0 := calibration_states model in
  let x0 := calibration_controls model in
  let p := calibration_parameters model in
  let ns := length s0 in
  let nx := length x0 in
  let s := firstn ns z in
  let x := skipn ns z in
  length z = ns + nx ->
  transition model s x e p = Ok S -> length S = ns ->
  arbitrage model s x s x p = Ok r -> length r = nx ->
  (fobj model s0 e p Unforced z = Ok (floats (zip_sub S s ++ r)) /\
   length (zip_sub S s) = ns /\ length (zip_sub S s ++ r) = ns + nx) /\
  (forall items inds vals,
     items <> [] ->
     bind_force_values model (Some (Dict items)) = Ok (Bound inds vals) ->
     (forall i, In i inds -> i < ns) ->
     fobj model s0 e p (Bound inds vals) z = Err TypeError) /\
  (forall l, bind_force_values model (Some (Sequence l)) = Err TypeError).
Proof.
  cbv zeta. intros Hz HS HlS Hr Hlr.
  assert (Hs : length S = length (firstn (length (calibration_states model)) z))
    by (rewrite length_firstn; lia).
  assert (Hgap : length (zip_sub S (firstn (length (calibration_states model)) z))
                 = length (calibration_states model))
    by (rewrite zip_sub_length; congruence).
  split; [|split].
  - unfold fobj. rewrite HS, Hr. simpl. rewrite (subtract_same_length _ _ Hs). simpl.
    repeat split; [exact Hgap|]. rewrite length_app. lia.
  - intros items inds vals Hne Hb Hrange. rewrite <- HlS in Hrange.
    unfold bind_force_values in Hb.
    destruct (comprehension _ _) as [inds'|ex] eqn:Ec; simpl in Hb; [|discriminate].
    inversion Hb; subst; clear Hb.
    apply comprehension_ok_length in Ec. rewrite length_map in Ec.
    assert (Hinds : inds <> [])
      by (destruct inds, items; simpl in Ec; congruence).
    unfold fobj. rewrite HS, Hr. simpl. rewrite (subtract_same_length _ _ Hs). simpl.
    now rewrite (forced_gap_of_view S _ Hinds Hrange).
  - reflexivity.
Qed.

(** ** The routine on the concrete models *)

Import Instances.

(** C1 does not hold.  The calibration of [stable_model] is its steady
    state and the solver converges there; [drift_model] has no steady state
    and the solver gives up on it with [success = False]; yet the two calls
    return the same value, a list of two vectors with nothing else in it. *)
Lemma nonconvergence_is_indistinguishable :
  let f (model : Model) :=
    fobj model (calibration_states model) (zeros 1)
         (calibration_parameters model) Unforced in
  (exists sol, Instances.root (f stable_model) calibrated_guess = Ok sol /\
               success sol = true) /\
  (exists sol, Instances.root (f drift_model) calibrated_guess = Ok sol /\
               success sol = false) /\
  outcome (run_find_steady_state drift_model None None false) =
    Ok (SteadyState [one; of_Z 0] [one]) /\
  outcome (run_find_steady_state stable_model None None false) =
    Ok (SteadyState [one; of_Z 0] [one]).
Proof.
  cbv zeta. split; [|split; [|split]].
  - eexists; split; vm_compute; reflexivity.
  - eexists; split; vm_compute; reflexivity.
  - vm_compute; reflexivity.
  - vm_compute; reflexivity.
Qed.

Lemma solver_verdict_witness :
  (forall f z, res_map x (Instances.root f z) = res_map x (root_reporting true f z)) /\
  run_find_steady_state drift_model None None false =
  find_steady_state Instances.MyJacobian Instances.matrix_rank (root_reporting true)
    drift_model None None false.
Proof.
  assert (H : forall f z,
             res_map x (Instances.root f z) = res_map x (root_reporting true f z))
    by (intros f z; unfold root_reporting; destruct (Instances.root f z); reflexivity).
  split; [exact H|].
  exact (@solver_verdict_is_not_surfaced Instances.MyJacobian Instances.matrix_rank
           Instances.root (root_reporting true) drift_model None None false H).
Defined.


Lemma unknown_symbol_witness :
  In "z"%string (map fst [("z"%string, one)]) /\
  ~ In "z"%string (symbols_states unit_root_model) /\
  run_find_steady_state unit_root_model None (Some (Dict [("z"%string, one)])) false =
  ([], Err ValueError).
Proof.
  assert (Hin : In "z"%string (map fst [("z"%string, one)])) by (simpl; auto).
  assert (Hout : ~ In "z"%string (symbols_states unit_root_model))
    by (simpl; intros [H|[H|[]]]; discriminate).
  split; [exact Hin|]. split; [exact Hout|].
  exact (@unknown_symbol_raises_before_solving Instances.MyJacobian
           Instances.matrix_rank Instances.root unit_root_model None
           [("z"%string, one)] false "z"%string Hin Hout).
Defined.

Lemma default_shocks_witness :
  ravel {| shape := [1; 1]; flat := [of_Z 0] |} =
    zeros (length (symbols_shocks stable_model)) /\
  run_find_steady_state stable_model None None false =
  run_find_steady_state stable_model
    (Some {| shape := [1; 1]; flat := [of_Z 0] |}) None false.
Proof.
  split; [reflexivity|].
  exact (proj2 (@default_shocks_are_zeros Instances.MyJacobian Instances.matrix_rank
                  Instances.root stable_model None false)
               {| shape := [1; 1]; flat := [of_Z 0] |} eq_refl).
Defined.

Lemma fobj_witness :
  fobj unit_root_model [one; of_Z 0] (zeros 1) [one; half; of_Z 0] Unforced
       calibrated_guess = Ok (floats [of_Z 0; of_Z 0; of_Z 0]) /\
  bind_force_values unit_root_model (Some (Dict [("k"%string, one)])) =
    Ok (Bound [0] (Values [one])) /\
  fobj unit_root_model [one; of_Z 0] (zeros 1) [one; half; of_Z 0]
       (Bound [0] (Values [one])) calibrated_guess = Err TypeError.
Proof.
  pose proof (@fobj_assembles_residual unit_root_model (zeros 1) calibrated_guess
                [one; of_Z 0] [of_Z 0] eq_refl ltac:(vm_compute; reflexivity)
                eq_refl ltac:(vm_compute; reflexivity) eq_refl)
    as [[Hfree _] [Hdict _]].
  split; [|split; [reflexivity|]].
  - vm_compute; vm_compute in Hfree; exact Hfree.
  - assert (Hne : [("k"%string, one)] <> []) by discriminate.
    assert (Hr : forall i, In i [0] -> i < 2) by (intros i [<-|[]]; lia).
    exact (Hdict [("k"%string, one)] [0] (Values [one]) Hne eq_refl Hr).
Defined.

Lemma return_jacobian_witness :
  run_find_steady_state unit_root_model None None true =
  ([EvJacobian calibrated_guess],
   res_map Jacobian
     (Instances.MyJacobian
        (fobj unit_root_model [one; of_Z 0] (zeros 1) [one; half; of_Z 0] Unforced)
        calibrated_guess)).
Proof.
  exact (proj2 (@return_jacobian_short_circuits Instances.MyJacobian
                  Instances.matrix_rank Instances.root unit_root_model None None)
               Unforced eq_refl).
Defined.

(** C7 does not hold.  The Jacobian of [nan_model] has entries that are not
    numbers and its rank cannot be computed: the LinAlgError of the rank
    computation ends the call, and the root solver is not called. *)
Lemma rank_failure_ends_the_call :
  (exists jac,
     Instances.MyJacobian
       (fobj nan_model [one; of_Z 0] (zeros 1) [nan; half; of_Z 0] Unforced)
       calibrated_guess = Ok jac /\
     matrix_rank_svd jac = Err (Raised "LinAlgError") /\
     find_steady_state Instances.MyJacobian matrix_rank_svd Instances.root
       nan_model None None false =
     ([EvJacobian calibrated_guess; EvMatrixRank jac], Err (Raised "LinAlgError"))) /\
  (forall z,
     ~ In (EvRoot z)
          (trace (find_steady_state Instances.MyJacobian matrix_rank_svd
                    Instances.root nan_model None None false))).
Proof.
  split.
  - eexists. split; [vm_compute; reflexivity|].
    split; vm_compute; reflexivity.
  - intros z H. vm_compute in H.
    destruct H as [H|[H|[]]]; discriminate.
Qed.

Lemma warning_witness :
  In (EvWarn "There are 3 equilibrium variables to find, but the jacobian matrix is only of rank 2. The solution is indeterminate.")
     (trace (run_find_steady_state unit_root_model None None false)) /\
  (forall message,
     ~ In (EvWarn message)
          (trace (run_find_steady_state stable_model None None false))).
Proof.
  split.
  - pose proof (@warning_iff_rank_deficient Instances.MyJacobian Instances.matrix_rank
             Instances.root unit_root_model None None Unforced unit_root_jacobian
             eq_refl ltac:(vm_compute; reflexivity)) as [H _].
    apply (proj2 (proj1 (H 2 ltac:(vm_compute; reflexivity)) _)).
    split; [vm_compute; lia|vm_compute; reflexivity].
  - intros message H.
    pose proof (@warning_iff_rank_deficient Instances.MyJacobian Instances.matrix_rank
             Instances.root stable_model None None Unforced
             [ [SFopp half; of_Z 0; of_Z 0];
               [of_Z 0; SFopp half; of_Z 0];
               [SFopp one; SFopp one; one] ]
             eq_refl ltac:(vm_compute; reflexivity)) as [H' _].
    pose proof (proj1 (proj1 (H' 3 ltac:(vm_compute; reflexivity)) message) H)
      as [Hlt _].
    vm_compute in Hlt. lia.
Defined.

Lemma instance_root_keeps_length :
  forall f z sol, Instances.root f z = Ok sol -> length (x sol) = length z.
Proof.
  intros f z sol H. unfold Instances.root in H.
  destruct (f z) as [r|ex]; [|discriminate].
  simpl in H. destruct (dtype_of r); [|discriminate].
  inversion H; reflexivity.
Qed.

Lemma split_witness :
  exists b sol,
    bind_force_values stable_model None = Ok b /\
    Instances.root (fobj stable_model [one; of_Z 0] (zeros 1) [half; half; half] b)
                   calibrated_guess = Ok sol /\
    SteadyState [one; of_Z 0] [one] = SteadyState (firstn 2 (x sol)) (skipn 2 (x sol)) /\
    length (firstn 2 (x sol)) = 2 /\
    length (skipn 2 (x sol)) = 1.
Proof.
  exact (@solution_is_split_at_ns Instances.MyJacobian Instances.matrix_rank
           Instances.root stable_model None None
           [EvJacobian calibrated_guess;
            EvMatrixRank [ [SFopp half; of_Z 0; of_Z 0];
                           [of_Z 0; SFopp half; of_Z 0];
                           [SFopp one; SFopp one; one] ];
            EvRoot calibrated_guess]
           (SteadyState [one; of_Z 0] [one])
           (conj eq_refl eq_refl) instance_root_keeps_length
           ltac:(vm_compute; reflexivity)).
Defined.

Lemma no_diagnostic_witness :
  Instances.matrix_rank unit_root_jacobian = Ok 2 /\
  run_find_steady_state unit_root_model None None true =
  ([EvJacobian calibrated_guess], Ok (Jacobian unit_root_jacobian)).
Proof.
  split; [vm_compute; reflexivity|].
  exact (proj1 (proj2 (@no_diagnostic_when_returning_jacobian Instances.MyJacobian
                  Instances.matrix_rank Instances.root unit_root_model None None))
               Unforced unit_root_jacobian 2 eq_refl
               ltac:(vm_compute; reflexivity) ltac:(vm_compute; reflexivity)
               ltac:(vm_compute; lia)).
Defined.

(** * Further properties of the routine *)

(** ** Positions and lookups *)

Lemma take_out_of_range (a : vec) (inds : list nat) (i : nat) :
  In i inds -> length a <= i -> take a inds = Err IndexError.
Proof.
  intros Hin Hi. unfold take.
  apply comprehension_raises with (a := i); [|exact Hin|].
  - intros j ex. destruct (nth_error a j); [discriminate|]. now inversion 1.
  - apply nth_error_None in Hi. now rewrite Hi.
Qed.

Lemma index_first_position (symbols : list string) (k : string) (i : nat) :
  index symbols k = Ok i ->
  nth_error symbols i = Some k /\
  forall j, j < i -> nth_error symbols j <> Some k.
Proof.
  revert i; induction symbols as [|y l IH]; simpl; intros i H; [discriminate|].
  destruct (String.eqb_spec y k) as [->|Hne].
  - inversion H; subst. split; [reflexivity|]. intros j Hj; lia.
  - destruct (index l k) as [i'|]; simpl in H; [|discriminate].
    inversion H; subst. destruct (IH i' eq_refl) as [Hnth Hfirst].
    split; [exact Hnth|]. intros [|j] Hj; simpl.
    + congruence.
    + apply Hfirst. lia.
Qed.

Lemma index_present (symbols : list string) (k : string) :
  In k symbols -> exists i, index symbols k = Ok i.
Proof.
  induction symbols as [|y l IH]; simpl; intros H; [contradiction|].
  destruct (String.eqb_spec y k) as [->|Hne]; [now exists 0|].
  destruct H as [H|H]; [contradiction|].
  destruct (IH H) as [i ->]. now exists (S i).
Qed.

(** ** Binding [inds] and [vals] *)


(** X3.  A dict [force_values] all of whose keys are state symbols binds:
    [inds] holds, key by key in the order of the dict, the first position of
    the key in [symbols['states']] (looking that position up gives the key
    back), and [vals] the values in the same order. *)
Theorem dict_binds_positions (model : Model) (items : list (string * float64)) :
  (forall k, In k (map fst items) -> In k (symbols_states model)) ->
  exists inds,
    bind_force_values model (Some (Dict items)) =
      Ok (Bound inds (Values (map snd items))) /\
    Forall2 (fun k i =>
               nth_error (symbols_states model) i = Some k /\
               forall j, j < i -> nth_error (symbols_states model) j <> Some k)
            (map fst items) inds.
Proof.
  intros Hkeys. unfold bind_force_values.
  assert (H : exists inds,
            comprehension (index (symbols_states model)) (map fst items) = Ok inds /\
            Forall2 (fun k i =>
               nth_error (symbols_states model) i = Some k /\
               forall j, j < i -> nth_error (symbols_states model) j <> Some k)
              (map fst items) inds).
  { induction (map fst items) as [|k ks IH]; simpl.
    - exists []. split; [reflexivity|constructor].
    - destruct (index_present (symbols_states model) k) as [i Hi];
        [apply Hkeys; now left|].
      destruct IH as (inds & Hc & Hall); [intros k' Hk'; apply Hkeys; now right|].
      exists (i :: inds). rewrite Hi, Hc. simpl. split; [reflexivity|].
      constructor; [now apply index_first_position|exact Hall]. }
  destruct H as (inds & Hc & Hall). exists inds. rewrite Hc. simpl. now split.
Qed.

(** ** Failures of [fobj] *)

(** X4.  When [force_values] is neither a list or tuple nor a dict (an
    ndarray, say) the call is not rejected: lines 26-32 bind nothing, and
    [fobj] then never returns a residual.  It raises a NameError as soon as
    the model functions and [S - s] go through. *)
Theorem fobj_unbound_never_returns (model : Model) (s0 e p z : vec) :
  bind_force_values model (Some Other) = Ok Unbound /\
  (exists ex, fobj model s0 e p Unbound z = Err ex) /\
  (forall S r gap,
     transition model (firstn (length s0) z) (skipn (length s0) z) e p = Ok S ->
     arbitrage model (firstn (length s0) z) (skipn (length s0) z)
               (firstn (length s0) z) (skipn (length s0) z) p = Ok r ->
     subtract S (firstn (length s0) z) = Ok gap ->
     fobj model s0 e p Unbound z = Err NameError).
Proof.
  split; [reflexivity|]. unfold fobj. split.
  - destruct (transition model _ _ e p) as [S|ex]; simpl; [|now exists ex].
    destruct (arbitrage model _ _ _ _ p) as [r|ex]; simpl; [|now exists ex].
    destruct (subtract S _) as [gap|ex]; simpl; [|now exists ex].
    now exists NameError.
  - intros S r gap HS Hr Hgap. rewrite HS, Hr. simpl. now rewrite Hgap.
Qed.

(** X5.  A constrained position at or beyond the length of what
    [transition] returns is found only inside [fobj]: once the model
    functions and [S - s] have gone through, [S[inds]] raises an
    IndexError. *)
Theorem fobj_position_out_of_range
    (model : Model) (s0 e p z S r gap : vec) (inds : list nat) (vals : Vals)
    (i : nat) :
  transition model (firstn (length s0) z) (skipn (length s0) z) e p = Ok S ->
  arbitrage model (firstn (length s0) z) (skipn (length s0) z)
            (firstn (length s0) z) (skipn (length s0) z) p = Ok r ->
  subtract S (firstn (length s0) z) = Ok gap ->
  In i inds -> length S <= i ->
  fobj model s0 e p (Bound inds vals) z = Err IndexError.
Proof.
  intros HS Hr Hgap Hin Hi. unfold fobj. rewrite HS, Hr. simpl. rewrite Hgap. simpl.
  unfold forced_gap. now rewrite (take_out_of_range S inds Hin Hi).
Qed.

(** X6.  [fobj] does not check how many entries [transition] returns: a
    number that differs from the number of states, neither of the two being
    one, makes [S - s] raise a ValueError, whatever the constraints. *)
Theorem fobj_transition_shape_mismatch
    (model : Model) (s0 e p z S r : vec) (b : Binding) :
  transition model (firstn (length s0) z) (skipn (length s0) z) e p = Ok S ->
  arbitrage model (firstn (length s0) z) (skipn (length s0) z)
            (firstn (length s0) z) (skipn (length s0) z) p = Ok r ->
  length S <> length (firstn (length s0) z) ->
  length S <> 1 -> length (firstn (length s0) z) <> 1 ->
  fobj model s0 e p b z = Err ValueError.
Proof.
  intros HS Hr Hne HS1 Hs1. unfold fobj. rewrite HS, Hr. simpl.
  unfold subtract. apply Nat.eqb_neq in Hne. rewrite Hne.
  destruct S as [|u [|u' S]], (firstn (length s0) z) as [|v [|v' s]];
    simpl in *; try reflexivity; try lia; now destruct (Nat.eqb _ _).
Qed.

(** X7.  An empty dict binds no position, and [S[inds] - vals] then has no
    entry to subtract from: [fobj] returns the entries of the unconstrained
    residual (and raises where the unconstrained [fobj] raises), but as an
    array of objects instead of an array of floats. *)
Theorem empty_dict_gives_object_residual (model : Model) (s0 e p z : vec) :
  bind_force_values model (Some (Dict [])) = Ok (Bound [] (Values [])) /\
  fobj model s0 e p (Bound [] (Values [])) z =
  res_map (fun a => {| dtype_of := object_; entries := entries a |})
          (fobj model s0 e p Unforced z).
Proof.
  split; [reflexivity|]. unfold fobj.
  destruct (transition model _ _ e p) as [S|ex]; simpl; [|reflexivity].
  destruct (arbitrage model _ _ _ _ p) as [r|ex]; simpl; [|reflexivity].
  destruct (subtract S _) as [gap|ex]; simpl; [|reflexivity].
  unfold concatenate; simpl. now rewrite app_nil_r.
Qed.

(** ** Splitting and the shape of a run *)

Lemma firstn_guess (s0 x0 : vec) : firstn (length s0) (s0 ++ x0) = s0.
Proof. induction s0 as [|a s0 IH]; simpl; [now destruct x0|now rewrite IH]. Qed.

Lemma skipn_guess (s0 x0 : vec) : skipn (length s0) (s0 ++ x0) = x0.
Proof. induction s0 as [|a s0 IH]; simpl; [reflexivity|exact IH]. Qed.

Section MoreOnTheRoutine.

Variable MyJacobian : (vec -> res array) -> vec -> res matrix.
Variable matrix_rank : matrix -> res nat.
Variable root : (vec -> res array) -> vec -> res OptimizeResult.

(** The routine with the collaborators of this section. *)
Local Abbreviation find_steady_state' :=
  (find_steady_state MyJacobian matrix_rank root).

(** X10.  A run is one of five sequences of collaborator calls: none; the
    Jacobian alone; the Jacobian and the rank; these two and the solver; or
    these two, one warning and the solver.  So the Jacobian is estimated at
    most once and first, the solver is started at most once, last, from the
    calibrated guess, and never before the rank of the Jacobian is known. *)
Theorem trace_shapes
    (model : Model) (e : option ndarray) (force_values : option ForceValues)
    (return_jacobian : bool) :
  let z := calibration_states model ++ calibration_controls model in
  let t := trace (find_steady_state' model e force_values return_jacobian) in
  t = [] \/ t = [EvJacobian z] \/
  return_jacobian = false /\
  exists jac,
    t = [EvJacobian z; EvMatrixRank jac] \/
    exists rank,
      matrix_rank jac = Ok rank /\
      (t = [EvJacobian z; EvMatrixRank jac; EvRoot z] /\ length z <= rank \/
       t = [EvJacobian z; EvMatrixRank jac;
            EvWarn (warning_message (length z) rank); EvRoot z] /\ rank < length z).
Proof.
  cbv zeta.
  destruct (bind_force_values model force_values) as [b|ex'] eqn:Hb.
  2:{ erewrite run_binding_raises by eassumption. now left. }
  destruct (MyJacobian (residual model e b) (guess model)) as [jac|ex'] eqn:HJ.
  2:{ erewrite run_jacobian_raises by eassumption. right; now left. }
  destruct return_jacobian.
  { erewrite run_return_jacobian by eassumption. right; now left. }
  right; right. split; [reflexivity|]. exists jac.
  destruct (matrix_rank jac) as [rank|ex'] eqn:Hr.
  2:{ erewrite run_rank_raises by eassumption. now left. }
  right. exists rank. split; [reflexivity|].
  rewrite (run_solve _ _ _ _ _ _ Hb HJ Hr).
  unfold trace, diagnostic_events, guess; simpl.
  destruct (Nat.ltb_spec rank
              (length (calibration_states model ++ calibration_controls model)));
    [right|left]; now split.
Qed.

(** X11.  The demonstration computes by hand the rank of the matrix a
    [return_jacobian=True] call returns.  That is the diagnostic of the
    solve: when the call returns [jac] and the rank of [jac] is [rank], the
    solve with the same arguments warns exactly when [rank < len(z)]. *)
Theorem returned_jacobian_predicts_warning
    (model : Model) (e : option ndarray) (force_values : option ForceValues)
    (t : list event) (jac : matrix) (rank : nat) :
  find_steady_state' model e force_values true = (t, Ok (Jacobian jac)) ->
  matrix_rank jac = Ok rank ->
  ((exists message,
      In (EvWarn message) (trace (find_steady_state' model e force_values false)))
   <-> rank < length (calibration_states model) + length (calibration_controls model)).
Proof.
  intros Hrun Hr.
  destruct (bind_force_values model force_values) as [b|ex'] eqn:Hb.
  2:{ erewrite run_binding_raises in Hrun by eassumption. discriminate. }
  erewrite run_return_jacobian in Hrun by eassumption.
  destruct (MyJacobian (residual model e b) (guess model)) as [jac'|ex'] eqn:HJ;
    simpl in Hrun; [|discriminate].
  assert (jac' = jac) by congruence. subst jac'.
  rewrite (run_solve _ _ _ _ _ _ Hb HJ Hr).
  unfold trace, diagnostic_events, guess; simpl. rewrite length_app.
  destruct (Nat.ltb_spec rank
              (length (calibration_states model) + length (calibration_controls model)));
    simpl; split.
  - intros _. assumption.
  - intros _. eexists. right; right; left. reflexivity.
  - intros [message [H'|[H'|[H'|[]]]]]; discriminate.
  - lia.
Qed.

(** X12.  Splitting undoes the concatenation of line 19: when the solver
    hands back its initial guess (it had no step to make, or no budget),
    the solve returns the calibrated states and the calibrated controls. *)
Theorem unmoved_solver_returns_calibration
    (model : Model) (e : option ndarray) (force_values : option ForceValues)
    (t : list event) (result : Result) :
  (forall f z sol, root f z = Ok sol -> x sol = z) ->
  find_steady_state' model e force_values false = (t, Ok result) ->
  result = SteadyState (calibration_states model) (calibration_controls model).
Proof.
  intros Hroot Hrun.
  destruct (bind_force_values model force_values) as [b|ex'] eqn:Hb.
  2:{ erewrite run_binding_raises in Hrun by eassumption. discriminate. }
  destruct (MyJacobian (residual model e b) (guess model)) as [jac|ex'] eqn:HJ.
  2:{ erewrite run_jacobian_raises in Hrun by eassumption. discriminate. }
  destruct (matrix_rank jac) as [rank|ex'] eqn:Hr.
  2:{ erewrite run_rank_raises in Hrun by eassumption. discriminate. }
  rewrite (run_solve _ _ _ _ _ _ Hb HJ Hr) in Hrun.
  destruct (root (residual model e b) (guess model)) as [sol|ex'] eqn:Hsol;
    simpl in Hrun; [|discriminate].
  apply Hroot in Hsol. inversion Hrun; subst. unfold split_solution.
  rewrite Hsol. unfold guess. now rewrite firstn_guess, skipn_guess.
Qed.

(** X13.  What comes back is decided by [return_jacobian] alone: a call
    that returns a matrix was made with [return_jacobian=True], and a call
    that returns the list of two vectors with [return_jacobian=False]. *)
Theorem result_kind_follows_flag
    (model : Model) (e : option ndarray) (force_values : option ForceValues)
    (return_jacobian : bool) (t : list event) (result : Result) :
  find_steady_state' model e force_values return_jacobian = (t, Ok result) ->
  match result with
  | Jacobian _ => return_jacobian = true
  | SteadyState _ _ => return_jacobian = false
  end.
Proof.
  intros Hrun.
  destruct (bind_force_values model force_values) as [b|ex'] eqn:Hb.
  2:{ erewrite run_binding_raises in Hrun by eassumption. discriminate. }
  destruct (MyJacobian (residual model e b) (guess model)) as [jac|ex'] eqn:HJ.
  2:{ erewrite run_jacobian_raises in Hrun by eassumption. discriminate. }
  destruct return_jacobian.
  { erewrite run_return_jacobian in Hrun by eassumption. rewrite HJ in Hrun.
    simpl in Hrun. now inversion Hrun. }
  destruct (matrix_rank jac) as [rank|ex'] eqn:Hr.
  2:{ erewrite run_rank_raises in Hrun by eassumption. discriminate. }
  rewrite (run_solve _ _ _ _ _ _ Hb HJ Hr) in Hrun.
  destruct (root (residual model e b) (guess model)) as [sol|ex'];
    simpl in Hrun; [|discriminate].
  now inversion Hrun.
Qed.


End MoreOnTheRoutine.

(** ** The further properties on the concrete models *)


Lemma dict_binds_positions_witness :
  exists inds,
    bind_force_values unit_root_model
      (Some (Dict [("a"%string, half); ("k"%string, one)])) =
      Ok (Bound inds (Values (map snd [("a"%string, half); ("k"%string, one)]))) /\
    Forall2 (fun k i =>
               nth_error (symbols_states unit_root_model) i = Some k /\
               forall j, j < i -> nth_error (symbols_states unit_root_model) j <> Some k)
            (map fst [("a"%string, half); ("k"%string, one)]) inds.
Proof.
  apply (@dict_binds_positions unit_root_model
           [("a"%string, half); ("k"%string, one)]).
  intros k Hk. change (In k ["a"%string; "k"%string]) in Hk.
  change (In k ["k"%string; "a"%string]).
  destruct Hk as [<-|[<-|[]]]; [right; left|left]; reflexivity.
Defined.

Lemma fobj_position_out_of_range_witness :
  bind_force_values short_model (Some (Dict [("a"%string, half)])) =
    Ok (Bound [1] (Values [half])) /\
  fobj short_model [one; of_Z 0] (zeros 1) [] (Bound [1] (Values [half]))
       calibrated_guess = Err IndexError.
Proof.
  split; [reflexivity|].
  apply (@fobj_position_out_of_range short_model [one; of_Z 0] (zeros 1) []
           calibrated_guess [one] [of_Z 0] [of_Z 0; one] [1] (Values [half]) 1).
  - vm_compute; reflexivity.
  - vm_compute; reflexivity.
  - vm_compute; reflexivity.
  - now left.
  - vm_compute; lia.
Defined.

Lemma fobj_transition_shape_mismatch_witness :
  fobj overlong_model [one; of_Z 0] (zeros 1) [] Unforced calibrated_guess =
  Err ValueError.
Proof.
  apply (@fobj_transition_shape_mismatch overlong_model [one; of_Z 0] (zeros 1) []
           calibrated_guess [one; of_Z 0; one] [of_Z 0] Unforced).
  - vm_compute; reflexivity.
  - vm_compute; reflexivity.
  - vm_compute; lia.
  - vm_compute; lia.
  - vm_compute; lia.
Defined.

Lemma returned_jacobian_predicts_warning_witness :
  (exists message,
     In (EvWarn message)
        (trace (run_find_steady_state unit_root_model None None false)))
  <-> 2 < length (calibration_states unit_root_model)
          + length (calibration_controls unit_root_model).
Proof.
  exact (@returned_jacobian_predicts_warning Instances.MyJacobian
           Instances.matrix_rank Instances.root unit_root_model None None
           [EvJacobian calibrated_guess] unit_root_jacobian 2
           ltac:(vm_compute; reflexivity) ltac:(vm_compute; reflexivity)).
Defined.

Lemma instance_root_returns_guess :
  forall f z sol, Instances.root f z = Ok sol -> x sol = z.
Proof.
  intros f z sol H. unfold Instances.root in H.
  destruct (f z) as [r|ex]; [|discriminate].
  simpl in H. destruct (dtype_of r); [|discriminate].
  inversion H; reflexivity.
Qed.

Lemma unmoved_solver_witness :
  SteadyState [one; of_Z 0] [one] =
  SteadyState (calibration_states drift_model) (calibration_controls drift_model).
Proof.
  exact (@unmoved_solver_returns_calibration Instances.MyJacobian
           Instances.matrix_rank Instances.root drift_model None None
           [EvJacobian calibrated_guess;
            EvMatrixRank unit_root_jacobian;
            EvWarn (warning_message 3 2);
            EvRoot calibrated_guess]
           (SteadyState [one; of_Z 0] [one])
           instance_root_returns_guess ltac:(vm_compute; reflexivity)).
Defined.

Lemma result_kind_follows_flag_witness :
  run_find_steady_state unit_root_model None None true =
    ([EvJacobian calibrated_guess], Ok (Jacobian unit_root_jacobian)) /\
  match Jacobian unit_root_jacobian with
  | Jacobian _ => true = true
  | SteadyState _ _ => true = false
  end.
Proof.
  assert (H : run_find_steady_state unit_root_model None None true =
              ([EvJacobian calibrated_guess], Ok (Jacobian unit_root_jacobian)))
    by (vm_compute; reflexivity).
  split; [exact H|].
  exact (@result_kind_follows_flag Instances.MyJacobian Instances.matrix_rank
           Instances.root unit_root_model None None true
           [EvJacobian calibrated_guess] (Jacobian unit_root_jacobian) H).
Defined.

